(** * Feature engagement tracker

    A shallow embedding of
    [components/feature_engagement_tracker/internal/feature_engagement_tracker_impl.cc]
    and the properties of its orchestrator, [FeatureEngagementTrackerImpl].

    The tracker owns five collaborators which it only knows through their
    C++ interfaces ([Model], [AvailabilityModel], [Configuration],
    [ConditionValidator], [TimeProvider]).  The interfaces are type classes
    here, the tracker is written once over all their implementations, and
    the implementations the factory functions plug in are given as
    instances further down. *)

From stdpp Require Import base gmap strings list sorting.

Open Scope N_scope.

(** ** Data *)

(** [uint32_t current_day]: only ever passed along and compared. *)
Abbreviation Day := N.

Module base.

(** [base::Feature].  The source handles features by pointer
    ([const base::Feature*], [const base::Feature&]): a feature is the
    object at its address, and two features at different addresses may
    carry the same name. *)
Record Feature := { address : N; name : string }.

#[global] Instance Feature_eq_dec : EqDecision Feature.
Proof. solve_decision. Defined.

#[global] Instance Feature_countable : Countable Feature.
Proof.
  apply (inj_countable' (λ feature, (address feature, name feature))
                        (λ p, Build_Feature p.1 p.2)).
  by intros [].
Defined.

End base.

(** Modelled from the spec: the declarations of [EventConfig] and
    [FeatureConfig] (configuration.h) are missing; spec section 3 gives
    their fields.  The source reads [valid] and [trigger.name]. *)
Record Comparator := { count : N; window_days : N }.

Record EventConfig := {
  name : string;
  comparator : Comparator;
  storage_window_days : N }.

Record FeatureConfig := {
  valid : bool;
  trigger : EventConfig;
  used : EventConfig;
  event_configs : list EventConfig }.

(** What [FeatureConfig feature_config;] declares: nothing configured, and
    not valid. *)
Definition EventConfig_default : EventConfig :=
  {| name := EmptyString;
     comparator := {| count := 0; window_days := 0 |};
     storage_window_days := 0 |}.

Definition FeatureConfig_default : FeatureConfig :=
  {| valid := false;
     trigger := EventConfig_default;
     used := EventConfig_default;
     event_configs := [] |}.

(** [feature_config.valid = v] and [feature_config.trigger.name = s]. *)
Definition set_valid (v : bool) (c : FeatureConfig) : FeatureConfig :=
  {| valid := v; trigger := trigger c; used := used c;
     event_configs := event_configs c |}.

Definition set_trigger_name (s : string) (c : FeatureConfig) : FeatureConfig :=
  {| valid := valid c;
     trigger := {| name := s; comparator := comparator (trigger c);
                   storage_window_days := storage_window_days (trigger c) |};
     used := used c;
     event_configs := event_configs c |}.

(** Modelled from the spec: [ConditionValidator::Result] (section 4.4), the
    rules that failed; [NoErrors()] holds when none did. *)
Inductive RuleKind :=
| INVALID_CONFIG
| MODEL_NOT_READY
| EVENT_RULE
| AVAILABILITY_RULE
| ALREADY_SHOWING
| ALREADY_TRIGGERED.

Record Result := { failed_rules : list RuleKind }.

Definition NoErrors (r : Result) : bool :=
  match failed_rules r with
  | [] => true
  | _ :: _ => false
  end.

(** ** The collaborators' interfaces

    Each class lists the virtual methods the tracker calls, the receiver
    first.  A [const] method is a function of the receiver's state; a
    mutating one returns the new state. *)

(** [Model::Initialize] also takes the completion callback; the tracker
    always binds it to [OnModelInitializationFinished], which the model
    runs later, from the message loop (see [Call] below). *)
Class Model (M : Type) := {
  Initialize : M → Day → M;
  IsReady : M → bool;
  IncrementEvent : M → string → Day → M }.

Class AvailabilityModel (A : Type) := {
  GetAvailabilityDays : A → base.Feature → option N }.

Class Configuration (C : Type) := {
  GetFeatureConfig : C → base.Feature → FeatureConfig }.

(** The validator is handed the model and the availability model by
    reference and may look at them as it likes. *)
Class ConditionValidator (V M A : Type) := {
  MeetsConditions : V → base.Feature → FeatureConfig → M → A → Day → Result;
  NotifyIsShowing : V → base.Feature → V;
  NotifyDismissed : V → base.Feature → V }.

Class TimeProvider (T : Type) := {
  GetCurrentDay : T → Day }.

(** The two [DCHECK]s of the file.  A [DCHECK] compiles to nothing in a
    release build, and that is the behaviour given to the methods below;
    so that the assertions can be stated, one that does not hold is
    recorded, by name, in the state. *)
Inductive Assertion :=
| DCHECK_NE_trigger_name
| DCHECK_EQ_success_IsReady.

(** ** The tracker *)

Section Tracker.

Context {M A C V T Callback : Type}.
Context `{!Model M, !AvailabilityModel A, !Configuration C,
          !ConditionValidator V M A, !TimeProvider T}.

(** [base::Bind(callback, success)]: a callback with its argument bound,
    ready to be posted. *)
Record Task := Bind { bound_callback : Callback; bound_success : bool }.

(** The members of [FeatureEngagementTrackerImpl] ([weak_ptr_factory_]
    apart, which only guards the model's report against a destroyed
    tracker), followed by the part of the environment its methods act on:
    the queue of the current thread's task runner, the tasks the message
    loop has run so far, and the record of failed [DCHECK]s. *)
Record World := {
  model_ : M;
  availability_model_ : A;
  configuration_ : C;
  condition_validator_ : V;
  time_provider_ : T;
  initialization_finished_ : bool;
  on_initialized_callbacks_ : list Callback;
  task_runner : list Task;
  ran_tasks : list Task;
  dcheck_failures : list Assertion }.

Definition set_model_ (m : M) (w : World) : World :=
  {| model_ := m;
     availability_model_ := availability_model_ w;
     configuration_ := configuration_ w;
     condition_validator_ := condition_validator_ w;
     time_provider_ := time_provider_ w;
     initialization_finished_ := initialization_finished_ w;
     on_initialized_callbacks_ := on_initialized_callbacks_ w;
     task_runner := task_runner w;
     ran_tasks := ran_tasks w;
     dcheck_failures := dcheck_failures w |}.

Definition set_condition_validator_ (v : V) (w : World) : World :=
  {| model_ := model_ w;
     availability_model_ := availability_model_ w;
     configuration_ := configuration_ w;
     condition_validator_ := v;
     time_provider_ := time_provider_ w;
     initialization_finished_ := initialization_finished_ w;
     on_initialized_callbacks_ := on_initialized_callbacks_ w;
     task_runner := task_runner w;
     ran_tasks := ran_tasks w;
     dcheck_failures := dcheck_failures w |}.

Definition set_time_provider_ (t : T) (w : World) : World :=
  {| model_ := model_ w;
     availability_model_ := availability_model_ w;
     configuration_ := configuration_ w;
     condition_validator_ := condition_validator_ w;
     time_provider_ := t;
     initialization_finished_ := initialization_finished_ w;
     on_initialized_callbacks_ := on_initialized_callbacks_ w;
     task_runner := task_runner w;
     ran_tasks := ran_tasks w;
     dcheck_failures := dcheck_failures w |}.

Definition set_initialization_finished_ (b : bool) (w : World) : World :=
  {| model_ := model_ w;
     availability_model_ := availability_model_ w;
     configuration_ := configuration_ w;
     condition_validator_ := condition_validator_ w;
     time_provider_ := time_provider_ w;
     initialization_finished_ := b;
     on_initialized_callbacks_ := on_initialized_callbacks_ w;
     task_runner := task_runner w;
     ran_tasks := ran_tasks w;
     dcheck_failures := dcheck_failures w |}.

Definition set_on_initialized_callbacks_ (l : list Callback) (w : World) : World :=
  {| model_ := model_ w;
     availability_model_ := availability_model_ w;
     configuration_ := configuration_ w;
     condition_validator_ := condition_validator_ w;
     time_provider_ := time_provider_ w;
     initialization_finished_ := initialization_finished_ w;
     on_initialized_callbacks_ := l;
     task_runner := task_runner w;
     ran_tasks := ran_tasks w;
     dcheck_failures := dcheck_failures w |}.

Definition set_task_runner (q : list Task) (w : World) : World :=
  {| model_ := model_ w;
     availability_model_ := availability_model_ w;
     configuration_ := configuration_ w;
     condition_validator_ := condition_validator_ w;
     time_provider_ := time_provider_ w;
     initialization_finished_ := initialization_finished_ w;
     on_initialized_callbacks_ := on_initialized_callbacks_ w;
     task_runner := q;
     ran_tasks := ran_tasks w;
     dcheck_failures := dcheck_failures w |}.

Definition set_ran_tasks (l : list Task) (w : World) : World :=
  {| model_ := model_ w;
     availability_model_ := availability_model_ w;
     configuration_ := configuration_ w;
     condition_validator_ := condition_validator_ w;
     time_provider_ := time_provider_ w;
     initialization_finished_ := initialization_finished_ w;
     on_initialized_callbacks_ := on_initialized_callbacks_ w;
     task_runner := task_runner w;
     ran_tasks := l;
     dcheck_failures := dcheck_failures w |}.

Definition set_dcheck_failures (l : list Assertion) (w : World) : World :=
  {| model_ := model_ w;
     availability_model_ := availability_model_ w;
     configuration_ := configuration_ w;
     condition_validator_ := condition_validator_ w;
     time_provider_ := time_provider_ w;
     initialization_finished_ := initialization_finished_ w;
     on_initialized_callbacks_ := on_initialized_callbacks_ w;
     task_runner := task_runner w;
     ran_tasks := ran_tasks w;
     dcheck_failures := l |}.

(** *** A method body: a state transformer with a result *)

Definition Run (R : Type) : Type := World → R * World.

#[global] Instance Run_ret : MRet Run := λ R r w, (r, w).

#[global] Instance Run_bind : MBind Run :=
  λ R S k m w, let (r, w') := m w in k r w'.

Definition gets {R} (f : World → R) : Run R := λ w, (f w, w).

Definition modify (f : World → World) : Run () := λ w, ((), f w).

(** The state a method leaves behind. *)
Definition exec {R} (m : Run R) (w : World) : World := (m w).2.

(** The value a method returns. *)
Definition eval {R} (m : Run R) (w : World) : R := (m w).1.

Fixpoint for_each {X} (l : list X) (body : X → Run ()) : Run () :=
  match l with
  | [] => mret ()
  | x :: l' => body x;; for_each l' body
  end.

(** [base::ThreadTaskRunnerHandle::Get()->PostTask(FROM_HERE, task)]. *)
Definition PostTask (task : Task) : Run () :=
  modify (λ w, set_task_runner (task_runner w ++ [task]) w).

Definition DCHECK (a : Assertion) (holds : bool) : Run () :=
  modify (λ w, if holds then w
               else set_dcheck_failures (dcheck_failures w ++ [a]) w).

(** *** The constructor and the methods, in the order of the source *)

(** The constructor stores its arguments, clears the flag and starts the
    model's initialization for the current day. *)
Definition FeatureEngagementTrackerImpl
    (model : M) (availability_model : A) (configuration : C)
    (condition_validator : V) (time_provider : T) : World :=
  {| model_ := Initialize model (GetCurrentDay time_provider);
     availability_model_ := availability_model;
     configuration_ := configuration;
     condition_validator_ := condition_validator;
     time_provider_ := time_provider;
     initialization_finished_ := false;
     on_initialized_callbacks_ := [];
     task_runner := [];
     ran_tasks := [];
     dcheck_failures := [] |}.

Definition NotifyEvent (event : string) : Run () :=
  day ← gets (λ w, GetCurrentDay (time_provider_ w));
  modify (λ w, set_model_ (IncrementEvent (model_ w) event day) w).

Definition ShouldTriggerHelpUI (feature : base.Feature) : Run bool :=
  result ← gets (λ w,
    NoErrors (MeetsConditions (condition_validator_ w) feature
                (GetFeatureConfig (configuration_ w) feature)
                (model_ w) (availability_model_ w)
                (GetCurrentDay (time_provider_ w))));
  if (result : bool) then
    modify (λ w, set_condition_validator_
                   (NotifyIsShowing (condition_validator_ w) feature) w);;
    feature_config ← gets (λ w, GetFeatureConfig (configuration_ w) feature);
    DCHECK DCHECK_NE_trigger_name
           (negb (String.eqb EmptyString (name (trigger feature_config))));;
    day ← gets (λ w, GetCurrentDay (time_provider_ w));
    modify (λ w, set_model_
                   (IncrementEvent (model_ w) (name (trigger feature_config)) day)
                   w);;
    mret result
  else
    mret result.

Definition Dismissed (feature : base.Feature) : Run () :=
  modify (λ w, set_condition_validator_
                 (NotifyDismissed (condition_validator_ w) feature) w).

Definition IsInitialized : Run bool :=
  gets (λ w, IsReady (model_ w)).

Definition AddOnInitializedCallback (callback : Callback) : Run () :=
  finished ← gets initialization_finished_;
  if (finished : bool) then
    ready ← gets (λ w, IsReady (model_ w));
    PostTask (Bind callback ready)
  else
    modify (λ w, set_on_initialized_callbacks_
                   (on_initialized_callbacks_ w ++ [callback]) w).

Definition OnModelInitializationFinished (success : bool) : Run () :=
  ready ← gets (λ w, IsReady (model_ w));
  DCHECK DCHECK_EQ_success_IsReady (Bool.eqb success ready);;
  modify (set_initialization_finished_ true);;
  callbacks ← gets on_initialized_callbacks_;
  for_each callbacks (λ callback, PostTask (Bind callback success));;
  modify (set_on_initialized_callbacks_ []).

(** *** The environment: the message loop, the model's loading, the clock *)

(** The message loop runs the task at the head of the queue.  What a
    callback does when run is its owner's business; here a run task is
    recorded and nothing else changes. *)
Definition RunPostedTask : Run () :=
  modify (λ w,
    match task_runner w with
    | [] => w
    | task :: queue => set_ran_tasks (ran_tasks w ++ [task]) (set_task_runner queue w)
    end).

(** [base::RunLoop().RunUntilIdle()]: one turn of the loop per queued task. *)
Definition RunUntilIdle (w : World) : World :=
  Nat.iter (length (task_runner w)) (exec RunPostedTask) w.

(** What can happen to a tracker: a call of one of its public methods, the
    model reporting the end of its initialization, the message loop running
    a posted task, and the model and the clock changing state on their own
    (the store finishes loading, a day passes). *)
Inductive Call :=
| CallNotifyEvent (event : string)
| CallShouldTriggerHelpUI (feature : base.Feature)
| CallDismissed (feature : base.Feature)
| CallIsInitialized
| CallAddOnInitializedCallback (callback : Callback)
| CallOnModelInitializationFinished (success : bool)
| EnvRunPostedTask
| EnvChange (model_change : M → M) (clock_change : T → T).

Definition step (c : Call) : Run () :=
  match c with
  | CallNotifyEvent event => NotifyEvent event
  | CallShouldTriggerHelpUI feature => ShouldTriggerHelpUI feature;; mret ()
  | CallDismissed feature => Dismissed feature
  | CallIsInitialized => IsInitialized;; mret ()
  | CallAddOnInitializedCallback callback => AddOnInitializedCallback callback
  | CallOnModelInitializationFinished success => OnModelInitializationFinished success
  | EnvRunPostedTask => RunPostedTask
  | EnvChange model_change clock_change =>
      modify (λ w, set_time_provider_ (clock_change (time_provider_ w))
                     (set_model_ (model_change (model_ w)) w))
  end.

Definition run (cs : list Call) (w : World) : World :=
  foldl (λ w c, exec (step c) w) w cs.

(** The callbacks a trace registers, in the order of registration. *)
Fixpoint registered (cs : list Call) : list Callback :=
  match cs with
  | [] => []
  | CallAddOnInitializedCallback callback :: cs' => callback :: registered cs'
  | _ :: cs' => registered cs'
  end.

(** A step that can be taken while the model is still initializing:
    anything but the model's report. *)
Definition before_completion (c : Call) : bool :=
  match c with
  | CallOnModelInitializationFinished _ => false
  | _ => true
  end.

(** [shown feature cs w]: some [ShouldTriggerHelpUI(feature)] of the trace
    [cs], run from [w], returned true. *)
Fixpoint shown (feature : base.Feature) (cs : list Call) (w : World) : bool :=
  match cs with
  | [] => false
  | c :: cs' =>
      match c with
      | CallShouldTriggerHelpUI g =>
          bool_decide (g = feature) && eval (ShouldTriggerHelpUI g) w
      | _ => false
      end
      || shown feature cs' (exec (step c) w)
  end.

(** The verdict [ShouldTriggerHelpUI(feature)] asks the validator for. *)
Definition verdict (feature : base.Feature) (w : World) : Result :=
  MeetsConditions (condition_validator_ w) feature
    (GetFeatureConfig (configuration_ w) feature)
    (model_ w) (availability_model_ w) (GetCurrentDay (time_provider_ w)).

(** The notifications a validator receives from the tracker. *)
Inductive Notification :=
| IsShowing (feature : base.Feature)
| WasDismissed (feature : base.Feature).

Definition notify (v : V) (n : Notification) : V :=
  match n with
  | IsShowing feature => NotifyIsShowing v feature
  | WasDismissed feature => NotifyDismissed v feature
  end.

(** What a step tells the validator. *)
Definition notifications (c : Call) (w : World) : list Notification :=
  match c with
  | CallShouldTriggerHelpUI feature =>
      if eval (ShouldTriggerHelpUI feature) w then [IsShowing feature] else []
  | CallDismissed feature => [WasDismissed feature]
  | _ => []
  end.

(** Modelled from the spec: what makes a validator one-shot (section 4.4
    and the glossary: a feature satisfies its conditions at most once ever,
    regardless of usage counts), as a contract on the interface.  Once told
    that a feature is showing, the validator never again finds that
    feature's conditions met, whatever it is told later and whatever the
    configuration, the model and the day are. *)
Definition OneShot : Prop :=
  ∀ (v : V) feature (ns : list Notification) config (model : M)
    (availability_model : A) (day : Day),
    NoErrors (MeetsConditions (foldl notify (NotifyIsShowing v feature) ns)
                feature config model availability_model day) = false.

(** Modelled from the spec: the first rule of [MeetsConditions] (section
    4.4), as a contract on the interface.  A configuration that is not
    valid fails, whatever else holds. *)
Definition RejectsInvalidConfig : Prop :=
  ∀ (v : V) feature config (model : M) (availability_model : A) (day : Day),
    valid config = false →
    NoErrors (MeetsConditions v feature config model availability_model day) = false.

(** Modelled from the spec: fail closed (sections 4.1, 7 and 8.1: while
    the model is not ready no trigger fires), as a contract on the
    interface.  The tracker hands the model to the validator and has no
    readiness test of its own, so the rule is the validator's: a model
    that is not ready is an error, whatever else holds. *)
Definition FailsClosed : Prop :=
  ∀ (v : V) feature config (model : M) (availability_model : A) (day : Day),
    IsReady model = false →
    NoErrors (MeetsConditions v feature config model availability_model day) = false.

(** Modelled from the spec: events before readiness are dropped, not
    queued (sections 4.1, 5 and 7), as a contract on the interface.  The
    tracker forwards every [NotifyEvent] to the model and has no readiness
    test of its own, so the rule is the model's: an [IncrementEvent] on a
    model that is not ready leaves the model as it was. *)
Definition DropsBeforeReady : Prop :=
  ∀ (m : M) event (day : Day), IsReady m = false → IncrementEvent m event day = m.

End Tracker.

Arguments Task : clear implicits.
Arguments World : clear implicits.
Arguments Run : clear implicits.
Arguments Call : clear implicits.
Arguments Notification : clear implicits.
Arguments OneShot M A V {_}.
Arguments RejectsInvalidConfig M A V {_}.
Arguments FailsClosed M A V {_ _}.
Arguments DropsBeforeReady M {_}.

(** ** The components the demo-mode factory plugs in

    The factory names them; what they do is written down from what the
    spec says about them. *)

(** Modelled from the spec: the backing store and the storage validator a
    [ModelImpl] is created with (in_memory_store.h, persistent_store.h,
    never_storage_validator.h, feature_config_storage_validator.h are
    missing).  The tracker never talks to them; only their choice is kept. *)
Inductive Store :=
| InMemoryStore
| PersistentStore (storage_dir : string).

Inductive StorageValidator :=
| NeverStorageValidator
| FeatureConfigStorageValidator.

(** Modelled from the spec: [ModelImpl] (model_impl.h is missing).  Section
    3: per event name an ordered sequence of (day, count) buckets, sorted by
    day, at most one bucket per day.  Section 4.1: ready only after the
    load has reported success. *)
Record ModelImpl := {
  store_ : Store;
  storage_validator_ : StorageValidator;
  ready_ : bool;
  events_ : gmap string (list (Day * N)) }.

Definition ModelImpl_new (store : Store) (storage_validator : StorageValidator)
    : ModelImpl :=
  {| store_ := store; storage_validator_ := storage_validator;
     ready_ := false; events_ := ∅ |}.

(** Increments the bucket of [day], creating it in its place if absent. *)
Fixpoint IncrementBucket (day : Day) (buckets : list (Day * N)) : list (Day * N) :=
  match buckets with
  | [] => [(day, 1)]
  | (d, c) :: rest =>
      if day =? d then (d, c + 1) :: rest
      else if day <? d then (day, 1) :: (d, c) :: rest
      else (d, c) :: IncrementBucket day rest
  end.

Fixpoint BucketCount (day : Day) (buckets : list (Day * N)) : N :=
  match buckets with
  | [] => 0
  | (d, c) :: rest => if day =? d then c else BucketCount day rest
  end.

(** Section 3's invariant on a sequence of buckets: the days strictly
    increase. *)
Definition buckets_sorted (buckets : list (Day * N)) : Prop :=
  StronglySorted (λ b b', b.1 < b'.1) buckets.

(** The stored count of event [event_name] on [day]. *)
Definition EventCount (m : ModelImpl) (event_name : string) (day : Day) : N :=
  BucketCount day (default [] (events_ m !! event_name)).

(** Modelled from the spec: section 4.1.  [Initialize] begins the
    asynchronous load, which shows in the model only when it ends
    ([StoreLoaded]).  [IncrementEvent] on a model that is ready increments
    the bucket for (name, day), creating it if absent; before readiness is
    reached, and for good after a load that failed, it is a no-op with no
    error surfaced: the event is dropped, not queued. *)
#[global] Instance ModelImpl_Model : Model ModelImpl := {|
  Initialize m current_day := m;
  IsReady m := ready_ m;
  IncrementEvent m event_name day :=
    if ready_ m then
      {| store_ := store_ m; storage_validator_ := storage_validator_ m;
         ready_ := ready_ m;
         events_ := <[event_name :=
                       IncrementBucket day (default [] (events_ m !! event_name))]>
                    (events_ m) |}
    else m |}.

Definition model_sorted (m : ModelImpl) : Prop :=
  ∀ event_name buckets,
    events_ m !! event_name = Some buckets → buckets_sorted buckets.

(** The end of the asynchronous load: the model is ready exactly when the
    load succeeded.  The model then runs the tracker's
    [OnModelInitializationFinished] with the same value. *)
Definition StoreLoaded (success : bool) (m : ModelImpl) : ModelImpl :=
  {| store_ := store_ m; storage_validator_ := storage_validator_ m;
     ready_ := success; events_ := events_ m |}.

(** Modelled from the spec: [InitAwareModel] (init_aware_model.h is
    missing) wraps the model the factories create.  The spec describes one
    Model (section 4.1) and nothing for the wrapper to add, so every call
    is passed on to the wrapped model. *)
Record InitAwareModel := { wrapped_model_ : ModelImpl }.

#[global] Instance InitAwareModel_Model : Model InitAwareModel := {|
  Initialize m current_day :=
    {| wrapped_model_ := Initialize (wrapped_model_ m) current_day |};
  IsReady m := IsReady (wrapped_model_ m);
  IncrementEvent m event_name day :=
    {| wrapped_model_ := IncrementEvent (wrapped_model_ m) event_name day |} |}.

(** Modelled from the spec: [NeverAvailabilityModel] (section 4.2), the
    "never available" implementation: the answer is always absent. *)
Inductive NeverAvailabilityModel := NeverAvailabilityModel_new.

#[global] Instance NeverAvailabilityModel_AvailabilityModel
    : AvailabilityModel NeverAvailabilityModel := {|
  GetAvailabilityDays a feature := None |}.

(** Modelled from the spec: [EditableConfiguration] (section 4.3), the
    in-process configuration.  [SetConfiguration] overwrites any existing
    entry; a feature never registered has a configuration that is not
    valid. *)
Record EditableConfiguration := {
  configs_ : gmap base.Feature FeatureConfig }.

Definition EditableConfiguration_new : EditableConfiguration :=
  {| configs_ := ∅ |}.

Definition SetConfiguration (c : EditableConfiguration) (feature : base.Feature)
    (feature_config : FeatureConfig) : EditableConfiguration :=
  {| configs_ := <[feature := feature_config]> (configs_ c) |}.

#[global] Instance EditableConfiguration_Configuration
    : Configuration EditableConfiguration := {|
  GetFeatureConfig c feature :=
    default FeatureConfig_default (configs_ c !! feature) |}.

(** Modelled from the spec: [OnceConditionValidator]
    (once_condition_validator.h is missing), the one-shot validator of
    section 4.4.  Section 3 gives its state: the features currently
    showing, and the features that have already triggered.  A
    configuration that is not valid fails with [INVALID_CONFIG]; otherwise
    every rule is evaluated: the model it is handed must be ready
    (sections 4.1, 7 and 8.1: decisions fail closed), the feature must not
    be showing, and must not have triggered before; usage counts play no
    part.  [NotifyIsShowing] marks the feature as showing and remembers
    that it triggered; [NotifyDismissed] clears its showing state. *)
Record OnceConditionValidator := {
  currently_showing_ : gset base.Feature;
  triggered_ : gset base.Feature }.

Definition OnceConditionValidator_new : OnceConditionValidator :=
  {| currently_showing_ := ∅; triggered_ := ∅ |}.

#[global] Instance OnceConditionValidator_ConditionValidator {M A} `{!Model M}
    : ConditionValidator OnceConditionValidator M A := {|
  MeetsConditions v feature config model availability_model current_day :=
    if valid config then
      {| failed_rules :=
           (if IsReady model then [] else [MODEL_NOT_READY])
           ++ (if bool_decide (feature ∈ currently_showing_ v)
               then [ALREADY_SHOWING] else [])
           ++ (if bool_decide (feature ∈ triggered_ v)
               then [ALREADY_TRIGGERED] else []) |}
    else {| failed_rules := [INVALID_CONFIG] |};
  NotifyIsShowing v feature :=
    {| currently_showing_ := {[feature]} ∪ currently_showing_ v;
       triggered_ := {[feature]} ∪ triggered_ v |};
  NotifyDismissed v feature :=
    {| currently_showing_ := currently_showing_ v ∖ {[feature]};
       triggered_ := triggered_ v |} |}.

(** Modelled from the spec: [SystemTimeProvider] (section 2), the current
    day as the system clock shows it. *)
Record SystemTimeProvider := { system_day_ : Day }.

#[global] Instance SystemTimeProvider_TimeProvider
    : TimeProvider SystemTimeProvider := {|
  GetCurrentDay t := system_day_ t |}.

(** ** The demo-mode factory *)

(** [CreateDemoModeFeatureEngagementTracker()].  [all_features] is what the
    external [GetAllFeatures()] returns, and [time_provider] the clock the
    new [SystemTimeProvider] reads. *)
Definition CreateDemoModeFeatureEngagementTracker {Callback : Type}
    (all_features : list base.Feature) (time_provider : SystemTimeProvider)
    : World InitAwareModel NeverAvailabilityModel EditableConfiguration
            OnceConditionValidator SystemTimeProvider Callback :=
  let configuration :=
    foldl (λ configuration feature,
             let feature_config := FeatureConfig_default in
             let feature_config := set_valid true feature_config in
             let feature_config :=
               set_trigger_name (base.name feature +:+ "_trigger") feature_config in
             SetConfiguration configuration feature feature_config)
          EditableConfiguration_new all_features in
  let raw_model := ModelImpl_new InMemoryStore NeverStorageValidator in
  FeatureEngagementTrackerImpl
    {| wrapped_model_ := raw_model |}
    NeverAvailabilityModel_new configuration
    OnceConditionValidator_new time_provider.

(** ** A small installation, for the examples

    Two features known to [GetAllFeatures()], and one that is not. *)
Definition F1 : base.Feature := {| base.address := 1; base.name := "F1" |}.
Definition F2 : base.Feature := {| base.address := 2; base.name := "F2" |}.
Definition F3 : base.Feature := {| base.address := 3; base.name := "F3" |}.

(** A second feature object that carries the name of [F1]. *)
Definition F1_again : base.Feature := {| base.address := 4; base.name := "F1" |}.

(** Callbacks are told apart by a label. *)
Abbreviation DemoWorld :=
  (World InitAwareModel NeverAvailabilityModel EditableConfiguration
         OnceConditionValidator SystemTimeProvider string).

Abbreviation DemoCall := (Call InitAwareModel SystemTimeProvider string).

(** The demo-mode tracker right after its construction: the model is still
    loading. *)
Definition demo : DemoWorld :=
  CreateDemoModeFeatureEngagementTracker [F1; F2] {| system_day_ := 17000 |}.

(** The in-memory store finishes loading; the model then reports it. *)
Definition load_finished (success : bool) : list DemoCall :=
  [ EnvChange (λ m, {| wrapped_model_ := StoreLoaded success (wrapped_model_ m) |}) id;
    CallOnModelInitializationFinished success ].

Definition demo_ready : DemoWorld := run (load_finished true) demo.

(** The same tracker after a load that failed. *)
Definition demo_failed : DemoWorld := run (load_finished false) demo.

(** ** More vocabulary for traces *)

Section TraceVocabulary.

Context {M A C V T Callback : Type}.
Context `{!Model M, !AvailabilityModel A, !Configuration C,
          !ConditionValidator V M A, !TimeProvider T}.

(** Every callback the tracker or its task runner holds, oldest first:
    the ones whose task has run, the ones whose task is queued, the ones
    still pending. *)
Definition callbacks_of (w : World M A C V T Callback) : list Callback :=
  map bound_callback (ran_tasks w ++ task_runner w)
  ++ on_initialized_callbacks_ w.

(** Once initialization has finished nothing is pending. *)
Definition settled (w : World M A C V T Callback) : Prop :=
  initialization_finished_ w = true → on_initialized_callbacks_ w = [].

(** The notifications a whole trace sends to the validator. *)
Fixpoint trace_notifications (cs : list (Call M T Callback))
    (w : World M A C V T Callback) : list (Notification) :=
  match cs with
  | [] => []
  | c :: cs' => notifications c w ++ trace_notifications cs' (exec (step c) w)
  end.

(** What happens to the model: the tracker increments an event, or the
    model changes state on its own. *)
Inductive ModelOp :=
| Incremented (event : string) (day : Day)
| ChangedByItself (model_change : M → M).

Definition apply_op (m : M) (op : ModelOp) : M :=
  match op with
  | Incremented event day => IncrementEvent m event day
  | ChangedByItself model_change => model_change m
  end.

(** What a step does to the model. *)
Definition model_ops (c : Call M T Callback) (w : World M A C V T Callback)
    : list ModelOp :=
  match c with
  | CallNotifyEvent event =>
      [Incremented event (GetCurrentDay (time_provider_ w))]
  | CallShouldTriggerHelpUI feature =>
      if eval (ShouldTriggerHelpUI feature) w
      then [Incremented
              (name (trigger (GetFeatureConfig (configuration_ w) feature)))
              (GetCurrentDay (time_provider_ w))]
      else []
  | EnvChange model_change _ => [ChangedByItself model_change]
  | _ => []
  end.

Fixpoint trace_model_ops (cs : list (Call M T Callback))
    (w : World M A C V T Callback) : list ModelOp :=
  match cs with
  | [] => []
  | c :: cs' => model_ops c w ++ trace_model_ops cs' (exec (step c) w)
  end.

End TraceVocabulary.

Arguments ModelOp : clear implicits.

(** ** The demo-mode configuration of one feature

    What the loop of [CreateDemoModeFeatureEngagementTracker] registers
    for [feature]. *)
Definition DemoFeatureConfig (feature : base.Feature) : FeatureConfig :=
  let feature_config := FeatureConfig_default in
  let feature_config := set_valid true feature_config in
  set_trigger_name (base.name feature +:+ "_trigger") feature_config.

(** ** The factory entry point, [FeatureEngagementTracker::Create] *)

(** [std::unique_ptr<X>]: owns an object, or is null. *)
Definition unique_ptr (X : Type) : Type := option X.

(** [base::MakeUnique<X>(...)], given the object its constructor builds. *)
Definition MakeUnique {X} (x : X) : unique_ptr X := Some x.

(** [std::move(p)] handed to a [unique_ptr] parameter: the parameter takes
    over what [p] owned, and [p] is left null.  The result is the
    parameter's value, then the new value of [p]. *)
Definition std_move {X} (p : unique_ptr X) : unique_ptr X * unique_ptr X :=
  (p, None).

(** What a function that goes through pointers comes to: it returns, or it
    reaches the named expression with a null pointer, where the behaviour
    of the program is undefined. *)
Inductive Outcome (X : Type) :=
| Returns (x : X)
| NullDereference (expression : string).

Arguments Returns {X} x.
Arguments NullDereference {X} expression.

(** [p->...] and [*p]. *)
Definition arrow {X Y} (p : unique_ptr X) (expression : string)
    (k : X → Outcome Y) : Outcome Y :=
  match p with
  | Some x => k x
  | None => NullDereference expression
  end.

Section Create.

Context {Callback : Type}.

(** The components of the persistent tracker.  None of their sources is at
    hand, so their types and constructors are left open. *)
Context {SequencedTaskRunner FilePath ProtoDatabase PersistentStore_t
         FeatureConfigStorageValidator_t RawModel PersistentModel
         ChromeVariationsConfiguration FeatureConfigConditionValidator : Type}.
Context `{!Model PersistentModel, !Configuration ChromeVariationsConfiguration,
          !ConditionValidator FeatureConfigConditionValidator
             PersistentModel NeverAvailabilityModel}.

Variable new_ProtoDatabaseImpl : SequencedTaskRunner → ProtoDatabase.
Variable new_PersistentStore : FilePath → unique_ptr ProtoDatabase → PersistentStore_t.
Variable new_FeatureConfigStorageValidator : FeatureConfigStorageValidator_t.
Variable new_ModelImpl :
  unique_ptr PersistentStore_t → unique_ptr FeatureConfigStorageValidator_t → RawModel.
Variable new_InitAwareModel : unique_ptr RawModel → PersistentModel.
Variable new_ChromeVariationsConfiguration : ChromeVariationsConfiguration.
Variable new_FeatureConfigConditionValidator : FeatureConfigConditionValidator.
Variable new_SystemTimeProvider : SystemTimeProvider.

(** [configuration->ParseFeatureConfigs(features)] and
    [storage_validator->InitializeFeatures(features, configuration)], each
    returning the changed receiver. *)
Variable ParseFeatureConfigs :
  ChromeVariationsConfiguration → list base.Feature → ChromeVariationsConfiguration.
Variable InitializeFeatures :
  FeatureConfigStorageValidator_t → list base.Feature →
  ChromeVariationsConfiguration → FeatureConfigStorageValidator_t.

(** [base::FeatureList::IsEnabled], [kIPHDemoMode] and [GetAllFeatures()]. *)
Variable FeatureList_IsEnabled : base.Feature → bool.
Variable kIPHDemoMode : base.Feature.
Variable GetAllFeatures : list base.Feature.

(** The tracker [Create] hands out is one of two kinds. *)
Inductive Tracker :=
| DemoModeTracker
    (tracker : World InitAwareModel NeverAvailabilityModel EditableConfiguration
                     OnceConditionValidator SystemTimeProvider Callback)
| PersistentTracker
    (tracker : World PersistentModel NeverAvailabilityModel
                     ChromeVariationsConfiguration
                     FeatureConfigConditionValidator SystemTimeProvider Callback).

(** [new FeatureEngagementTrackerImpl(...)] on owning pointers.  The state
    of a tracker holds the collaborators themselves, so each pointer is
    followed here: [model_] and [time_provider_] by the constructor, the
    other three by the first method that needs them. *)
Definition new_FeatureEngagementTrackerImpl
    (model : unique_ptr PersistentModel)
    (availability_model : unique_ptr NeverAvailabilityModel)
    (configuration : unique_ptr ChromeVariationsConfiguration)
    (condition_validator : unique_ptr FeatureConfigConditionValidator)
    (time_provider : unique_ptr SystemTimeProvider) : Outcome Tracker :=
  arrow model "model_" (λ model,
  arrow availability_model "availability_model_" (λ availability_model,
  arrow configuration "configuration_" (λ configuration,
  arrow condition_validator "condition_validator_" (λ condition_validator,
  arrow time_provider "time_provider_" (λ time_provider,
  Returns (PersistentTracker
             (FeatureEngagementTrackerImpl model availability_model
                configuration condition_validator time_provider))))))).

Definition Create (storage_dir : FilePath)
    (background_task_runner : SequencedTaskRunner) : Outcome Tracker :=
  if FeatureList_IsEnabled kIPHDemoMode then
    Returns (DemoModeTracker
               (CreateDemoModeFeatureEngagementTracker GetAllFeatures
                  new_SystemTimeProvider))
  else
    let db := MakeUnique (new_ProtoDatabaseImpl background_task_runner) in
    let '(db_moved, db) := std_move db in
    let store := MakeUnique (new_PersistentStore storage_dir db_moved) in
    let storage_validator := MakeUnique new_FeatureConfigStorageValidator in
    let '(store_moved, store) := std_move store in
    let '(storage_validator_moved, storage_validator) :=
      std_move storage_validator in
    let raw_model := MakeUnique (new_ModelImpl store_moved storage_validator_moved) in
    let '(raw_model_moved, raw_model) := std_move raw_model in
    let model := MakeUnique (new_InitAwareModel raw_model_moved) in
    let configuration := MakeUnique new_ChromeVariationsConfiguration in
    let condition_validator := MakeUnique new_FeatureConfigConditionValidator in
    let time_provider := MakeUnique new_SystemTimeProvider in
    arrow configuration "configuration->ParseFeatureConfigs" (λ c,
    let configuration := Some (ParseFeatureConfigs c GetAllFeatures) in
    arrow storage_validator "storage_validator->InitializeFeatures" (λ v,
    arrow configuration "*configuration" (λ c,
    let storage_validator := Some (InitializeFeatures v GetAllFeatures c) in
    let '(model_moved, model) := std_move model in
    let '(configuration_moved, configuration) := std_move configuration in
    let '(condition_validator_moved, condition_validator) :=
      std_move condition_validator in
    let '(time_provider_moved, time_provider) := std_move time_provider in
    new_FeatureEngagementTrackerImpl
      model_moved (MakeUnique NeverAvailabilityModel_new)
      configuration_moved condition_validator_moved time_provider_moved))).

End Create.

Arguments Tracker : clear implicits.

(** * Proofs *)

(** Unfolds a method body down to the record it builds. *)
Ltac run_method :=
  cbv [NotifyEvent ShouldTriggerHelpUI Dismissed IsInitialized
       AddOnInitializedCallback OnModelInitializationFinished RunPostedTask
       PostTask DCHECK step verdict exec eval
       mbind mret Run_bind Run_ret gets modify fst snd].

(** Unfolds the sequencing of a method body and leaves its calls folded. *)
Ltac run_binds :=
  cbv [exec eval mbind mret Run_bind Run_ret gets modify fst snd].

(** ** The tracker over every implementation of its collaborators *)

Section TrackerProperties.

Context {M A C V T Callback : Type}.
Context `{!Model M, !AvailabilityModel A, !Configuration C,
          !ConditionValidator V M A, !TimeProvider T}.

#[local] Abbreviation W := (World M A C V T Callback).
#[local] Abbreviation Trace := (list (Call M T Callback)).

(** *** What each method does, as equations *)

Lemma set_model_same (w : W) : set_model_ (model_ w) w = w.
Proof. by destruct w. Qed.

Lemma NotifyEvent_run (w : W) event :
  NotifyEvent event w =
  ((), set_model_ (IncrementEvent (model_ w) event
                     (GetCurrentDay (time_provider_ w))) w).
Proof. reflexivity. Qed.

Lemma ShouldTriggerHelpUI_eval (w : W) feature :
  eval (ShouldTriggerHelpUI feature) w = NoErrors (verdict feature w).
Proof.
  run_method.
  by destruct (NoErrors _).
Qed.

Lemma ShouldTriggerHelpUI_declined (w : W) feature :
  NoErrors (verdict feature w) = false →
  ShouldTriggerHelpUI feature w = (false, w).
Proof.
  intros Hno. revert Hno. run_method. intros ->. reflexivity.
Qed.

Lemma ShouldTriggerHelpUI_accepted (w : W) feature :
  NoErrors (verdict feature w) = true →
  let w' := exec (ShouldTriggerHelpUI feature) w in
  eval (ShouldTriggerHelpUI feature) w = true
  ∧ condition_validator_ w' = NotifyIsShowing (condition_validator_ w) feature
  ∧ model_ w' = IncrementEvent (model_ w)
                  (name (trigger (GetFeatureConfig (configuration_ w) feature)))
                  (GetCurrentDay (time_provider_ w))
  ∧ availability_model_ w' = availability_model_ w
  ∧ configuration_ w' = configuration_ w
  ∧ time_provider_ w' = time_provider_ w
  ∧ initialization_finished_ w' = initialization_finished_ w
  ∧ on_initialized_callbacks_ w' = on_initialized_callbacks_ w
  ∧ task_runner w' = task_runner w
  ∧ ran_tasks w' = ran_tasks w.
Proof.
  intros Hok. revert Hok. run_method. intros ->.
  by destruct (negb _).
Qed.

Lemma AddOnInitializedCallback_run (w : W) callback :
  AddOnInitializedCallback callback w =
  ((), if initialization_finished_ w
       then set_task_runner
              (task_runner w ++ [Bind callback (IsReady (model_ w))]) w
       else set_on_initialized_callbacks_
              (on_initialized_callbacks_ w ++ [callback]) w).
Proof. run_method. by destruct (initialization_finished_ w). Qed.

Lemma for_each_PostTask (callbacks : list Callback) success (w : W) :
  for_each callbacks (λ callback, PostTask (Bind callback success)) w =
  ((), set_task_runner
         (task_runner w ++ map (λ callback, Bind callback success) callbacks) w).
Proof.
  revert w. induction callbacks as [|callback callbacks IH]; intros w.
  - cbn. rewrite app_nil_r. by destruct w.
  - cbn [for_each map]. run_binds. unfold PostTask at 1. run_binds.
    rewrite IH. cbn. by rewrite <- app_assoc.
Qed.

Lemma OnModelInitializationFinished_run (w : W) success :
  let w' := exec (OnModelInitializationFinished success) w in
  initialization_finished_ w' = true
  ∧ on_initialized_callbacks_ w' = []
  ∧ task_runner w' =
      task_runner w
      ++ map (λ callback, Bind callback success) (on_initialized_callbacks_ w)
  ∧ ran_tasks w' = ran_tasks w
  ∧ model_ w' = model_ w
  ∧ condition_validator_ w' = condition_validator_ w
  ∧ configuration_ w' = configuration_ w.
Proof.
  unfold OnModelInitializationFinished, DCHECK. run_binds.
  rewrite for_each_PostTask.
  by destruct (Bool.eqb _ _).
Qed.

Lemma run_cons (c : Call M T Callback) (cs : Trace) (w : W) :
  run (c :: cs) w = run cs (exec (step c) w).
Proof. reflexivity. Qed.

Lemma run_app (cs cs' : Trace) (w : W) :
  run (cs ++ cs') w = run cs' (run cs w).
Proof. apply foldl_app. Qed.

(** *** One step of a trace *)

Lemma step_ShouldTriggerHelpUI (w : W) feature :
  exec (ShouldTriggerHelpUI feature;; mret ()) w =
  exec (ShouldTriggerHelpUI feature) w.
Proof.
  cbv [exec mbind mret Run_bind Run_ret].
  by destruct (ShouldTriggerHelpUI feature w).
Qed.

(** Either way a [ShouldTriggerHelpUI] goes, these members stay. *)
Lemma ShouldTriggerHelpUI_frame (w : W) feature :
  let w' := exec (ShouldTriggerHelpUI feature) w in
  configuration_ w' = configuration_ w
  ∧ initialization_finished_ w' = initialization_finished_ w
  ∧ on_initialized_callbacks_ w' = on_initialized_callbacks_ w
  ∧ task_runner w' = task_runner w
  ∧ ran_tasks w' = ran_tasks w.
Proof.
  cbv zeta. destruct (NoErrors (verdict feature w)) eqn:Hv.
  - by destruct (ShouldTriggerHelpUI_accepted w feature Hv)
      as (_ & _ & _ & _ & -> & _ & -> & -> & -> & ->).
  - unfold exec. by rewrite (ShouldTriggerHelpUI_declined w feature Hv).
Qed.

Lemma step_initialization_finished (c : Call M T Callback) (w : W) :
  initialization_finished_ w = true →
  initialization_finished_ (exec (step c) w) = true.
Proof.
  intros Hfin. destruct c; cbn [step]; try done.
  - rewrite step_ShouldTriggerHelpUI.
    by destruct (ShouldTriggerHelpUI_frame w feature) as (_ & -> & _).
  - run_method. by rewrite Hfin.
  - by destruct (OnModelInitializationFinished_run w success) as (-> & _).
  - run_method. by case_match.
Qed.

Lemma step_before_completion (c : Call M T Callback) (w : W) :
  initialization_finished_ w = false →
  before_completion c = true →
  initialization_finished_ (exec (step c) w) = false
  ∧ on_initialized_callbacks_ (exec (step c) w) =
      on_initialized_callbacks_ w ++ registered [c]
  ∧ ran_tasks (exec (step c) w) ++ task_runner (exec (step c) w) =
      ran_tasks w ++ task_runner w.
Proof.
  intros Hfin Hc. destruct c; try discriminate Hc; cbn [registered step].
  - run_method. cbn. by rewrite app_nil_r.
  - rewrite step_ShouldTriggerHelpUI.
    destruct (ShouldTriggerHelpUI_frame w feature) as (_ & -> & -> & -> & ->).
    by rewrite app_nil_r.
  - run_method. cbn. by rewrite app_nil_r.
  - run_method. cbn. by rewrite app_nil_r.
  - run_method. rewrite Hfin. by cbn.
  - run_method. destruct (task_runner w) as [|task queue] eqn:Hq; cbn;
      rewrite ?Hq, ?app_nil_r; try done.
    by rewrite <- app_assoc.
  - run_method. cbn. by rewrite app_nil_r.
Qed.

Lemma step_notifications (c : Call M T Callback) (w : W) :
  condition_validator_ (exec (step c) w) =
  foldl notify (condition_validator_ w) (notifications c w).
Proof.
  destruct c; cbn [step notifications]; try done.
  - rewrite step_ShouldTriggerHelpUI, ShouldTriggerHelpUI_eval.
    destruct (NoErrors (verdict feature w)) eqn:Hv.
    + by destruct (ShouldTriggerHelpUI_accepted w feature Hv) as (_ & -> & _).
    + unfold exec. by rewrite (ShouldTriggerHelpUI_declined w feature Hv).
  - unfold exec. rewrite AddOnInitializedCallback_run.
    by destruct (initialization_finished_ w).
  - by destruct (OnModelInitializationFinished_run w success)
      as (_ & _ & _ & _ & _ & -> & _).
  - run_method. by case_match.
Qed.

Lemma step_configuration (c : Call M T Callback) (w : W) :
  configuration_ (exec (step c) w) = configuration_ w.
Proof.
  destruct c; cbn [step]; try done.
  - rewrite step_ShouldTriggerHelpUI.
    by destruct (ShouldTriggerHelpUI_frame w feature) as (-> & _).
  - unfold exec. rewrite AddOnInitializedCallback_run.
    by destruct (initialization_finished_ w).
  - by destruct (OnModelInitializationFinished_run w success)
      as (_ & _ & _ & _ & _ & _ & ->).
  - run_method. by case_match.
Qed.

(** *** Traces *)

Lemma run_before_completion (cs : Trace) (w : W) :
  initialization_finished_ w = false →
  forallb before_completion cs = true →
  initialization_finished_ (run cs w) = false
  ∧ on_initialized_callbacks_ (run cs w) =
      on_initialized_callbacks_ w ++ registered cs
  ∧ ran_tasks (run cs w) ++ task_runner (run cs w) =
      ran_tasks w ++ task_runner w.
Proof.
  revert w. induction cs as [|c cs IH]; intros w Hfin Hcs.
  - cbn. by rewrite app_nil_r.
  - cbn [forallb] in Hcs. apply andb_prop in Hcs as [Hc Hcs].
    destruct (step_before_completion c w Hfin Hc) as (Hfin' & Hcb & Htasks).
    rewrite run_cons.
    destruct (IH _ Hfin' Hcs) as (-> & -> & ->).
    rewrite Hcb, Htasks, <- app_assoc.
    split; [done|]. split; [|done].
    f_equal. by destruct c.
Qed.

Lemma run_notifies (cs : Trace) (w : W) :
  ∃ ns : list Notification,
    condition_validator_ (run cs w) = foldl notify (condition_validator_ w) ns.
Proof.
  revert w. induction cs as [|c cs IH]; intros w.
  - by exists [].
  - rewrite run_cons.
    destruct (IH (exec (step c) w)) as [ns' ->].
    rewrite step_notifications.
    exists (notifications c w ++ ns'). by rewrite foldl_app.
Qed.

Lemma run_configuration (cs : Trace) (w : W) :
  configuration_ (run cs w) = configuration_ w.
Proof.
  revert w. induction cs as [|c cs IH]; intros w; [done|].
  by rewrite run_cons, IH, step_configuration.
Qed.

Lemma iter_RunPostedTask (n : nat) (w : W) :
  length (task_runner w) = n →
  ran_tasks (Nat.iter n (exec RunPostedTask) w) = ran_tasks w ++ task_runner w
  ∧ task_runner (Nat.iter n (exec RunPostedTask) w) = [].
Proof.
  revert w. induction n as [|n IH]; intros w Hlen.
  - apply nil_length_inv in Hlen. cbn. by rewrite Hlen, app_nil_r.
  - rewrite Nat.iter_succ_r.
    destruct (task_runner w) as [|task queue] eqn:Hq; [done|].
    destruct (IH (exec RunPostedTask w)) as [-> ->].
    + run_method. rewrite Hq. cbn. cbn in Hlen. congruence.
    + split; [|done]. run_method. rewrite Hq. cbn. by rewrite <- app_assoc.
Qed.

Lemma RunUntilIdle_runs_the_queue (w : W) :
  ran_tasks (RunUntilIdle w) = ran_tasks w ++ task_runner w
  ∧ task_runner (RunUntilIdle w) = [].
Proof. by apply iter_RunPostedTask. Qed.

Lemma ShouldTriggerHelpUI_dcheck_failures (w : W) feature :
  dcheck_failures (exec (ShouldTriggerHelpUI feature) w) =
  if NoErrors (verdict feature w)
     && String.eqb EmptyString
          (name (trigger (GetFeatureConfig (configuration_ w) feature)))
  then dcheck_failures w ++ [DCHECK_NE_trigger_name]
  else dcheck_failures w.
Proof.
  run_method. destruct (NoErrors _); [|done].
  by destruct (String.eqb _ _).
Qed.

Lemma step_dcheck_failures (c : Call M T Callback) (w : W) :
  (∀ feature,
     NoErrors (verdict feature w) = true →
     name (trigger (GetFeatureConfig (configuration_ w) feature)) ≠ EmptyString) →
  DCHECK_NE_trigger_name ∈ dcheck_failures (exec (step c) w) →
  DCHECK_NE_trigger_name ∈ dcheck_failures w.
Proof.
  intros Hname. destruct c; cbn [step]; try done.
  - rewrite step_ShouldTriggerHelpUI, ShouldTriggerHelpUI_dcheck_failures.
    destruct (NoErrors (verdict feature w)) eqn:Hv; [|done].
    apply Hname, String.eqb_neq in Hv. by rewrite String.eqb_sym, Hv.
  - unfold exec. rewrite AddOnInitializedCallback_run.
    by destruct (initialization_finished_ w).
  - unfold OnModelInitializationFinished, DCHECK. run_binds.
    rewrite for_each_PostTask. destruct (Bool.eqb _ _); cbn; [done|].
    rewrite elem_of_app, list_elem_of_singleton. by intros [?|?].
  - run_method. by case_match.
Qed.

(** *** The claims *)


(** C2.  When the model is ready (the proof does not need it to be),
    [ShouldTriggerHelpUI(feature)] returns
    whether [MeetsConditions] reported no errors for the feature's
    configuration, the model, the availability model and the current day.
    When it did not, the validator has been told that the feature is
    showing, the model has been told to increment the feature's trigger
    event for the current day, and no other member has changed; otherwise
    the result is false and nothing has changed. *)
Theorem ShouldTriggerHelpUI_ready (w : W) feature :
  IsReady (model_ w) = true →
  let result :=
    NoErrors (MeetsConditions (condition_validator_ w) feature
                (GetFeatureConfig (configuration_ w) feature)
                (model_ w) (availability_model_ w)
                (GetCurrentDay (time_provider_ w))) in
  let w' := exec (ShouldTriggerHelpUI feature) w in
  eval (ShouldTriggerHelpUI feature) w = result
  ∧ (result = true →
       condition_validator_ w' = NotifyIsShowing (condition_validator_ w) feature
       ∧ model_ w' =
           IncrementEvent (model_ w)
             (name (trigger (GetFeatureConfig (configuration_ w) feature)))
             (GetCurrentDay (time_provider_ w))
       ∧ availability_model_ w' = availability_model_ w
       ∧ configuration_ w' = configuration_ w
       ∧ time_provider_ w' = time_provider_ w
       ∧ initialization_finished_ w' = initialization_finished_ w
       ∧ on_initialized_callbacks_ w' = on_initialized_callbacks_ w
       ∧ task_runner w' = task_runner w
       ∧ ran_tasks w' = ran_tasks w)
  ∧ (result = false → w' = w).
Proof.
  intros _ result w'. split; [|split].
  - apply ShouldTriggerHelpUI_eval.
  - intros Hok. by destruct (ShouldTriggerHelpUI_accepted w feature Hok) as [_ ?].
  - intros Hno. subst w'. unfold exec.
    by rewrite (ShouldTriggerHelpUI_declined w feature Hno).
Qed.


(** C4.  With a one-shot validator, once [ShouldTriggerHelpUI(feature)]
    has returned true, it returns false ever after: whatever calls are
    made in between, however the model and the day change. *)
Theorem one_shot_triggers_once (w : W) feature (cs : Trace) :
  OneShot M A V →
  eval (ShouldTriggerHelpUI feature) w = true →
  eval (ShouldTriggerHelpUI feature)
       (run cs (exec (ShouldTriggerHelpUI feature) w)) = false.
Proof.
  intros Hone Hfirst. rewrite ShouldTriggerHelpUI_eval in Hfirst.
  destruct (ShouldTriggerHelpUI_accepted w feature Hfirst) as (_ & Hv & _).
  rewrite ShouldTriggerHelpUI_eval. unfold verdict.
  destruct (run_notifies cs (exec (ShouldTriggerHelpUI feature) w)) as [ns ->].
  rewrite Hv. apply Hone.
Qed.

(** C5.  Take any steps made while the model is still initializing.  The
    callbacks they register are held in the pending queue, in the order of
    registration, and none of them is posted or run.  When the model then
    reports [success], one task per pending callback is posted, bound to
    [success], in that same order, behind what was already queued; none is
    run by the report itself; the pending queue is empty afterwards; and
    the message loop then runs each posted task once, in order. *)
Theorem pending_callbacks_delivered_in_order (w : W) (cs : Trace) success :
  initialization_finished_ w = false →
  forallb before_completion cs = true →
  let w1 := run cs w in
  let w2 := exec (OnModelInitializationFinished success) w1 in
  let deliveries :=
    map (λ callback, Bind callback success)
        (on_initialized_callbacks_ w ++ registered cs) in
  on_initialized_callbacks_ w1 = on_initialized_callbacks_ w ++ registered cs
  ∧ ran_tasks w1 ++ task_runner w1 = ran_tasks w ++ task_runner w
  ∧ length deliveries =
      (length (on_initialized_callbacks_ w) + length (registered cs))%nat
  ∧ task_runner w2 = task_runner w1 ++ deliveries
  ∧ ran_tasks w2 = ran_tasks w1
  ∧ on_initialized_callbacks_ w2 = []
  ∧ ran_tasks (RunUntilIdle w2) = ran_tasks w ++ task_runner w ++ deliveries
  ∧ task_runner (RunUntilIdle w2) = [].
Proof.
  intros Hfin Hcs w1 w2 deliveries.
  destruct (run_before_completion cs w Hfin Hcs) as (_ & Hcb & Htasks).
  destruct (OnModelInitializationFinished_run w1 success)
    as (_ & Hempty & Hposted & Hran & _).
  destruct (RunUntilIdle_runs_the_queue w2) as [Hidle Hqueue].
  fold w2 in Hempty, Hposted, Hran. fold w1 in Hcb, Htasks.
  rewrite Hcb in Hposted. fold deliveries in Hposted.
  repeat split; try done.
  - subst deliveries. by rewrite length_map, length_app.
  - rewrite Hidle, Hran, Hposted, app_assoc, Htasks. by rewrite <- app_assoc.
Qed.

(** C6.  Once initialization has finished, successfully or not,
    [AddOnInitializedCallback(callback)] does not touch the pending queue:
    it posts one task, the callback bound to what [IsReady()] returns at
    that moment, behind the tasks already queued, and runs nothing. *)
Theorem late_callback_posted_at_once (w : W) callback :
  initialization_finished_ w = true →
  let w' := exec (AddOnInitializedCallback callback) w in
  w' = set_task_runner
         (task_runner w ++ [Bind callback (IsReady (model_ w))]) w
  ∧ task_runner w' = task_runner w ++ [Bind callback (IsReady (model_ w))]
  ∧ on_initialized_callbacks_ w' = on_initialized_callbacks_ w
  ∧ ran_tasks w' = ran_tasks w.
Proof.
  intros Hfin w'. subst w'. unfold exec.
  rewrite AddOnInitializedCallback_run, Hfin. by cbn.
Qed.

(** C7.  Once [initialization_finished_] is true it stays true, whatever
    happens to the tracker afterwards. *)
Theorem initialization_finished_monotone (w : W) (cs : Trace) :
  initialization_finished_ w = true →
  initialization_finished_ (run cs w) = true.
Proof.
  revert w. induction cs as [|c cs IH]; intros w Hfin; [done|].
  rewrite run_cons. by apply IH, step_initialization_finished.
Qed.

(** C9.  Let the validator fail every configuration that is not valid
    (its first rule), and let every valid configuration of the tracker
    name its trigger event.  Then whenever [MeetsConditions] reports no
    errors for a feature, the feature's trigger name is not empty; the
    [DCHECK_NE] of [ShouldTriggerHelpUI] does not fail, in this call or in
    any call made later. *)
Theorem trigger_name_dcheck_holds (w : W) :
  RejectsInvalidConfig M A V →
  (∀ feature,
     valid (GetFeatureConfig (configuration_ w) feature) = true →
     name (trigger (GetFeatureConfig (configuration_ w) feature)) ≠ EmptyString) →
  ∀ feature,
    (NoErrors (verdict feature w) = true →
     name (trigger (GetFeatureConfig (configuration_ w) feature)) ≠ EmptyString)
    ∧ dcheck_failures (exec (ShouldTriggerHelpUI feature) w) = dcheck_failures w
    ∧ ∀ cs : Trace,
        DCHECK_NE_trigger_name ∈ dcheck_failures (run cs w) →
        DCHECK_NE_trigger_name ∈ dcheck_failures w.
Proof.
  intros Hrejects Hconfig.
  assert (Hname : ∀ (w' : W) feature,
             configuration_ w' = configuration_ w →
             NoErrors (verdict feature w') = true →
             name (trigger (GetFeatureConfig (configuration_ w') feature))
             ≠ EmptyString).
  { intros w' feature Hsame Hok. rewrite Hsame. apply Hconfig.
    destruct (valid _) eqn:Hvalid; [done|].
    unfold verdict in Hok. rewrite Hsame in Hok.
    by rewrite (Hrejects _ _ _ _ _ _ Hvalid) in Hok. }
  intros feature. split; [by apply Hname|]. split.
  - rewrite ShouldTriggerHelpUI_dcheck_failures.
    destruct (NoErrors (verdict feature w)) eqn:Hv; [|done].
    apply (Hname w) in Hv; [|done]. apply String.eqb_neq in Hv. by rewrite String.eqb_sym, Hv.
  - intros cs. assert (Hgo : ∀ w' : W,
        configuration_ w' = configuration_ w →
        DCHECK_NE_trigger_name ∈ dcheck_failures (run cs w') →
        DCHECK_NE_trigger_name ∈ dcheck_failures w'); [|by apply Hgo].
    induction cs as [|c cs IH]; intros w' Hsame; [done|].
    rewrite run_cons. intros Hin.
    apply (step_dcheck_failures c); [by intros; apply Hname|].
    apply IH; [|done]. by rewrite step_configuration.
Qed.

(** C10.  A [ShouldTriggerHelpUI(feature)] that returns false leaves
    every member of the tracker, and its environment, as it found it: the
    validator has not been notified and the model has not been asked to
    increment anything. *)
Theorem ShouldTriggerHelpUI_false_changes_nothing (w : W) feature :
  eval (ShouldTriggerHelpUI feature) w = false →
  ShouldTriggerHelpUI feature w = (false, w)
  ∧ condition_validator_ (exec (ShouldTriggerHelpUI feature) w)
    = condition_validator_ w
  ∧ model_ (exec (ShouldTriggerHelpUI feature) w) = model_ w.
Proof.
  rewrite ShouldTriggerHelpUI_eval. intros Hno. unfold exec.
  by rewrite (ShouldTriggerHelpUI_declined w feature Hno).
Qed.

End TrackerProperties.

(** ** The tracker around the one-shot validator *)

Section OnceValidator.

Context {M A C T Callback : Type}.
Context `{!Model M, !AvailabilityModel A, !Configuration C, !TimeProvider T}.

#[local] Abbreviation OW := (World M A C OnceConditionValidator T Callback).
#[local] Abbreviation OTrace := (list (Call M T Callback)).

Lemma OnceConditionValidator_remembers (v : OnceConditionValidator)
    (ns : list (Notification)) feature :
  feature ∈ triggered_ v →
  feature ∈ triggered_ (foldl (notify (M:=M) (A:=A)) v ns).
Proof.
  revert v. induction ns as [|n ns IH]; intros v Hin; [done|].
  cbn [foldl]. apply IH. destruct n; cbn; [set_solver|done].
Qed.

Lemma OnceConditionValidator_one_shot : OneShot M A OnceConditionValidator.
Proof.
  intros v feature ns config model availability_model day.
  assert (Hin : feature ∈
            triggered_ (foldl (notify (M:=M) (A:=A))
                          (NotifyIsShowing (M:=M) (A:=A) v feature) ns)).
  { apply OnceConditionValidator_remembers. cbn. set_solver. }
  cbn. destruct (valid config); [|done].
  rewrite (bool_decide_eq_true_2 _ Hin).
  unfold NoErrors. cbn. destruct (IsReady model); cbn; [by case_bool_decide|done].
Qed.

Lemma OnceConditionValidator_fails_closed :
  FailsClosed M A OnceConditionValidator.
Proof.
  intros v feature config model availability_model day Hnot.
  cbn. rewrite Hnot. by destruct (valid config).
Qed.

Lemma OnceConditionValidator_rejects_invalid :
  RejectsInvalidConfig M A OnceConditionValidator.
Proof.
  intros v feature config model availability_model day Hinvalid.
  cbn. by rewrite Hinvalid.
Qed.

Lemma Dismissed_not_showing (w : OW) feature :
  feature ∉ currently_showing_ (condition_validator_ w) →
  exec (Dismissed feature) w = w.
Proof.
  intros Hnot. destruct w as [m a c [showing triggered] t fin cbs q ran dc].
  run_method. unfold set_condition_validator_. cbn in *.
  do 2 f_equal. by apply difference_disjoint_L, disjoint_singleton_r.
Qed.

Lemma Dismissed_twice (w : OW) feature :
  exec (Dismissed feature) (exec (Dismissed feature) w) =
  exec (Dismissed feature) w.
Proof.
  apply Dismissed_not_showing. cbn.
  apply not_elem_of_difference. right. by apply elem_of_singleton.
Qed.

Lemma step_not_showing (c : Call M T Callback) (w : OW) feature :
  feature ∉ currently_showing_ (condition_validator_ w) →
  shown feature [c] w = false →
  feature ∉ currently_showing_ (condition_validator_ (exec (step c) w)).
Proof.
  intros Hnot Hshown. rewrite step_notifications.
  destruct c; cbn [notifications foldl notify]; try done.
  - cbn [shown] in Hshown. rewrite orb_false_r in Hshown.
    destruct (eval (ShouldTriggerHelpUI feature0) w); cbn [foldl notify]; [|done].
    rewrite andb_true_r in Hshown. apply bool_decide_eq_false in Hshown.
    cbn. apply not_elem_of_union. split; [|done].
    apply not_elem_of_singleton. by intros ->.
  - cbn. apply not_elem_of_difference. by left.
Qed.

Lemma run_not_showing (cs : OTrace) (w : OW) feature :
  feature ∉ currently_showing_ (condition_validator_ w) →
  shown feature cs w = false →
  feature ∉ currently_showing_ (condition_validator_ (run cs w)).
Proof.
  revert w. induction cs as [|c cs IH]; intros w Hnot Hshown; [done|].
  rewrite run_cons. cbn [shown] in Hshown.
  apply orb_false_elim in Hshown as [Hc Hcs].
  apply IH; [|done]. apply step_not_showing; [done|].
  cbn [shown]. by rewrite Hc.
Qed.

(** C8.  [Dismissed(feature)] has no precondition and no assertion, and
    with the validator of the spec it is idempotent.  On a tracker in
    which no [ShouldTriggerHelpUI(feature)] has returned true since its
    construction it changes nothing at all; after a
    [ShouldTriggerHelpUI(feature)] that returned true, and in every other
    state, ready or not, dismissing twice leaves the state that
    dismissing once leaves. *)
Theorem Dismissed_idempotent (model : M) (availability_model : A)
    (configuration : C) (time_provider : T) (cs : OTrace) (w : OW) feature :
  let w0 := FeatureEngagementTrackerImpl model availability_model configuration
              OnceConditionValidator_new time_provider in
  (shown feature cs w0 = false →
   exec (Dismissed feature) (run cs w0) = run cs w0)
  ∧ (eval (ShouldTriggerHelpUI feature) w = true →
     exec (Dismissed feature)
          (exec (Dismissed feature) (exec (ShouldTriggerHelpUI feature) w)) =
     exec (Dismissed feature) (exec (ShouldTriggerHelpUI feature) w))
  ∧ exec (Dismissed feature) (exec (Dismissed feature) w) =
    exec (Dismissed feature) w
  ∧ dcheck_failures (exec (Dismissed feature) w) = dcheck_failures w.
Proof.
  intros w0. repeat split.
  - intros Hshown. apply Dismissed_not_showing, run_not_showing; [|done].
    cbn. set_solver.
  - intros _. apply Dismissed_twice.
  - apply Dismissed_twice.
Qed.

End OnceValidator.

(** ** The model of the spec keeps its buckets in order and counts *)

Lemma BucketCount_later (day : Day) (buckets : list (Day * N)) :
  Forall (λ b, day < b.1) buckets → BucketCount day buckets = 0.
Proof.
  induction 1 as [|[d c] rest Hd _ IH]; [done|].
  cbn in *. destruct (N.eqb_spec day d); [lia|done].
Qed.

Lemma IncrementBucket_days (day : Day) (buckets : list (Day * N)) (P : Day → Prop) :
  P day → Forall (λ b, P b.1) buckets →
  Forall (λ b, P b.1) (IncrementBucket day buckets).
Proof.
  intros Hday. induction 1 as [|[d c] rest Hd Hrest IH]; cbn.
  - by repeat constructor.
  - destruct (day =? d); [by constructor|].
    destruct (day <? d); by repeat constructor.
Qed.

Lemma IncrementBucket_sorted (day : Day) (buckets : list (Day * N)) :
  buckets_sorted buckets → buckets_sorted (IncrementBucket day buckets).
Proof.
  induction 1 as [|[d c] rest Hrest IH Hd]; cbn.
  - by repeat constructor.
  - destruct (N.eqb_spec day d) as [->|Hne]; [by constructor|].
    destruct (N.ltb_spec day d) as [Hlt|Hge].
    + constructor; [by constructor|]. constructor; [done|].
      eapply Forall_impl; [exact Hd|]. cbn. lia.
    + constructor; [done|].
      apply (IncrementBucket_days day rest (λ d', d < d')); [lia|done].
Qed.

Lemma BucketCount_IncrementBucket (day day' : Day) (buckets : list (Day * N)) :
  buckets_sorted buckets →
  BucketCount day' (IncrementBucket day buckets) =
  if day' =? day then BucketCount day buckets + 1 else BucketCount day' buckets.
Proof.
  induction 1 as [|[d c] rest Hrest IH Hd]; cbn.
  - by destruct (day' =? day).
  - destruct (N.eqb_spec day d) as [->|Hne]; cbn.
    { by destruct (N.eqb_spec day' d). }
    destruct (N.ltb_spec day d) as [Hlt|Hge]; cbn.
    + destruct (N.eqb_spec day' day) as [->|Hne']; [|done].
      destruct (N.eqb_spec day d); [done|].
      rewrite BucketCount_later; [done|].
      eapply Forall_impl; [exact Hd|]. cbn. lia.
    + destruct (N.eqb_spec day' d) as [->|Hne']; [|done].
      by destruct (N.eqb_spec d day).
Qed.

(** On a ready model [IncrementEvent] adds one to the count of its event
    on its day and leaves every other count alone. *)
Lemma EventCount_IncrementEvent (m : ModelImpl) event_name day event_name' day' :
  ready_ m = true →
  model_sorted m →
  model_sorted (IncrementEvent m event_name day)
  ∧ EventCount (IncrementEvent m event_name day) event_name' day' =
    if bool_decide (event_name' = event_name) && (day' =? day)
    then EventCount m event_name' day' + 1
    else EventCount m event_name' day'.
Proof.
  intros Hready Hsorted.
  assert (Hhere : buckets_sorted (default [] (events_ m !! event_name))).
  { destruct (events_ m !! event_name) as [buckets|] eqn:Hlookup; cbn.
    - by apply (Hsorted event_name). - constructor. }
  cbn [IncrementEvent ModelImpl_Model]. rewrite Hready. split.
  - intros name' buckets'. cbn. rewrite lookup_insert. case_decide as Heq.
    + intros [= <-]. by apply IncrementBucket_sorted.
    + apply Hsorted.
  - unfold EventCount. cbn. rewrite lookup_insert.
    case_bool_decide as Heq; subst; cbn.
    + rewrite decide_True by done. cbn. rewrite BucketCount_IncrementBucket by done.
      by destruct (N.eqb_spec day' day) as [->|].
    + by rewrite decide_False by done.
Qed.

(** Before it is ready the model of the spec drops every event, and so
    does the wrapper around it. *)
Lemma ModelImpl_drops_before_ready : DropsBeforeReady ModelImpl.
Proof. intros m event day Hnot. cbn in *. by rewrite Hnot. Qed.

Lemma InitAwareModel_drops_before_ready : DropsBeforeReady InitAwareModel.
Proof.
  intros [m] event day Hnot. cbn in *. f_equal.
  by apply ModelImpl_drops_before_ready.
Qed.

(** ** The demo-mode tracker *)

Lemma trigger_suffix_not_empty (s : string) : s +:+ "_trigger" ≠ EmptyString.
Proof. by destruct s. Qed.

(** Every configuration the factory registers names its trigger event. *)
Lemma demo_configuration_names_triggers (all_features : list base.Feature)
    (c : EditableConfiguration) :
  (∀ feature feature_config,
     configs_ c !! feature = Some feature_config →
     name (trigger feature_config) ≠ EmptyString) →
  ∀ feature feature_config,
    configs_
      (foldl (λ configuration feature,
                SetConfiguration configuration feature
                  (set_trigger_name (base.name feature +:+ "_trigger")
                     (set_valid true FeatureConfig_default)))
             c all_features) !! feature = Some feature_config →
    name (trigger feature_config) ≠ EmptyString.
Proof.
  revert c. induction all_features as [|f fs IH]; intros c Hc; [done|].
  cbn [foldl]. apply IH. intros feature feature_config. cbn.
  rewrite lookup_insert. case_decide as Heq.
  - intros [= <-]. apply trigger_suffix_not_empty.
  - apply Hc.
Qed.

Lemma CreateDemoMode_names_triggers {Callback : Type} all_features time_provider :
  let w := CreateDemoModeFeatureEngagementTracker (Callback:=Callback)
             all_features time_provider in
  ∀ feature,
    valid (GetFeatureConfig (configuration_ w) feature) = true →
    name (trigger (GetFeatureConfig (configuration_ w) feature)) ≠ EmptyString.
Proof.
  intros w feature. cbn.
  destruct (configs_ _ !! feature) as [feature_config|] eqn:Hlookup; [|done].
  intros _. revert Hlookup. by apply demo_configuration_names_triggers.
Qed.

(** *** Examples *)


(** On the ready demo tracker [F1] triggers, and its trigger event is
    counted once for the day. *)
Lemma ShouldTriggerHelpUI_ready_witness :
  IsReady (model_ demo_ready) = true
  ∧ eval (ShouldTriggerHelpUI F1) demo_ready = true
  ∧ EventCount (wrapped_model_ (model_ (exec (ShouldTriggerHelpUI F1) demo_ready)))
      "F1_trigger" 17000 = 1.
Proof.
  split; [reflexivity|].
  assert (Hready : IsReady (model_ demo_ready) = true) by reflexivity.
  destruct (ShouldTriggerHelpUI_ready demo_ready F1 Hready)
    as (Hresult & Hyes & _).
  split; [exact Hresult|].
  assert (Hok : NoErrors (verdict F1 demo_ready) = true) by reflexivity.
  destruct (Hyes Hok) as (_ & -> & _). reflexivity.
Defined.


(** [F1] has triggered; dismissing it, using it and waiting a day do not
    make it trigger again. *)
Lemma one_shot_triggers_once_witness :
  eval (ShouldTriggerHelpUI F1) demo_ready = true
  ∧ eval (ShouldTriggerHelpUI F1)
      (run [CallDismissed F1; CallNotifyEvent "F1_used";
            EnvChange id (λ _, {| system_day_ := 17001 |})]
         (exec (ShouldTriggerHelpUI F1) demo_ready)) = false.
Proof.
  split; [reflexivity|].
  apply one_shot_triggers_once; [apply OnceConditionValidator_one_shot|reflexivity].
Defined.

(** Two callbacks registered while the store loads are run once each, in
    the order of registration, and only by the message loop. *)
Lemma pending_callbacks_delivered_in_order_witness :
  let cs : list DemoCall :=
    [CallAddOnInitializedCallback "first"; CallNotifyEvent "x";
     CallAddOnInitializedCallback "second";
     EnvChange (λ m, {| wrapped_model_ := StoreLoaded true (wrapped_model_ m) |}) id] in
  ran_tasks (run cs demo) = []
  ∧ ran_tasks (RunUntilIdle (exec (OnModelInitializationFinished true) (run cs demo)))
    = [Bind "first" true; Bind "second" true].
Proof.
  intros cs. split; [reflexivity|].
  assert (Hfin : initialization_finished_ demo = false) by reflexivity.
  assert (Hcs : forallb before_completion cs = true) by reflexivity.
  destruct (pending_callbacks_delivered_in_order demo cs true Hfin Hcs)
    as (_ & _ & _ & _ & _ & _ & Hran & _).
  exact Hran.
Defined.

(** A callback registered on the ready tracker is posted with [true]. *)
Lemma late_callback_posted_at_once_witness :
  initialization_finished_ demo_ready = true
  ∧ task_runner (exec (AddOnInitializedCallback "late") demo_ready)
    = [Bind "late" true]
  ∧ on_initialized_callbacks_ (exec (AddOnInitializedCallback "late") demo_ready)
    = []
  ∧ ran_tasks (exec (AddOnInitializedCallback "late") demo_ready) = [].
Proof.
  split; [reflexivity|].
  assert (Hfin : initialization_finished_ demo_ready = true) by reflexivity.
  destruct (late_callback_posted_at_once demo_ready "late" Hfin)
    as (_ & Hposted & Hpending & Hran).
  by repeat split.
Defined.

(** Not even a second, contradicting report of the model clears the flag. *)
Lemma initialization_finished_monotone_witness :
  initialization_finished_ demo_ready = true
  ∧ initialization_finished_
      (run [CallNotifyEvent "x"; CallShouldTriggerHelpUI F1; CallDismissed F1;
            CallIsInitialized; CallAddOnInitializedCallback "late";
            CallOnModelInitializationFinished false; EnvRunPostedTask]
         demo_ready) = true.
Proof.
  split; [reflexivity|].
  apply initialization_finished_monotone. reflexivity.
Defined.

(** The demo-mode configuration names every trigger, so the assertion
    holds when [F1] triggers. *)
Lemma trigger_name_dcheck_holds_witness :
  eval (ShouldTriggerHelpUI F1) demo_ready = true
  ∧ name (trigger (GetFeatureConfig (configuration_ demo_ready) F1)) ≠ EmptyString
  ∧ dcheck_failures (exec (ShouldTriggerHelpUI F1) demo_ready) = [].
Proof.
  split; [reflexivity|].
  destruct (trigger_name_dcheck_holds demo_ready
              OnceConditionValidator_rejects_invalid
              (CreateDemoMode_names_triggers [F1; F2] {| system_day_ := 17000 |})
              F1) as (Hname & Hdcheck & _).
  split; [by apply Hname|exact Hdcheck].
Defined.

(** [F2] was never shown; [F1] was shown once and is dismissed twice. *)
Lemma Dismissed_idempotent_witness :
  exec (Dismissed F2) (run [CallShouldTriggerHelpUI F1; CallDismissed F1] demo)
  = run [CallShouldTriggerHelpUI F1; CallDismissed F1] demo
  ∧ exec (Dismissed F1)
         (exec (Dismissed F1) (exec (ShouldTriggerHelpUI F1) demo_ready))
    = exec (Dismissed F1) (exec (ShouldTriggerHelpUI F1) demo_ready).
Proof.
  split.
  - assert (Hnever : shown F2 [CallShouldTriggerHelpUI F1; CallDismissed F1] demo
                     = false) by reflexivity.
    destruct (Dismissed_idempotent
                {| wrapped_model_ := ModelImpl_new InMemoryStore NeverStorageValidator |}
                NeverAvailabilityModel_new (configuration_ demo)
                {| system_day_ := 17000 |}
                [CallShouldTriggerHelpUI F1; CallDismissed F1] demo F2)
      as (Hnoop & _).
    exact (Hnoop Hnever).
  - assert (Hshown : eval (ShouldTriggerHelpUI F1) demo_ready = true)
      by reflexivity.
    destruct (Dismissed_idempotent
                {| wrapped_model_ := ModelImpl_new InMemoryStore NeverStorageValidator |}
                NeverAvailabilityModel_new (configuration_ demo)
                {| system_day_ := 17000 |} [] demo_ready F1)
      as (_ & Htwice & _).
    exact (Htwice Hshown).
Defined.

(** [F3] has no configuration: the answer is false and nothing changes. *)
Lemma ShouldTriggerHelpUI_false_changes_nothing_witness :
  eval (ShouldTriggerHelpUI F3) demo_ready = false
  ∧ ShouldTriggerHelpUI F3 demo_ready = (false, demo_ready).
Proof.
  split; [reflexivity|].
  assert (Hfalse : eval (ShouldTriggerHelpUI F3) demo_ready = false)
    by reflexivity.
  by destruct (ShouldTriggerHelpUI_false_changes_nothing demo_ready F3 Hfalse).
Defined.

(** * More about the tracker: whole traces *)

Section TrackerTraces.

Context {M A C V T Callback : Type}.
Context `{!Model M, !AvailabilityModel A, !Configuration C,
          !ConditionValidator V M A, !TimeProvider T}.

#[local] Abbreviation TW := (World M A C V T Callback).
#[local] Abbreviation TTrace := (list (Call M T Callback)).

Lemma step_settled (c : Call M T Callback) (w : TW) :
  settled w → settled (exec (step c) w).
Proof.
  unfold settled. intros Hw. destruct c; cbn [step]; try done.
  - rewrite step_ShouldTriggerHelpUI.
    by destruct (ShouldTriggerHelpUI_frame w feature) as (_ & -> & -> & _).
  - unfold exec. rewrite AddOnInitializedCallback_run.
    destruct (initialization_finished_ w) eqn:Hfin; cbn; [by auto|].
    by rewrite Hfin.
  - by destruct (OnModelInitializationFinished_run w success) as (_ & -> & _).
  - run_method. by case_match.
Qed.

Lemma run_settled (cs : TTrace) (w : TW) : settled w → settled (run cs w).
Proof.
  revert w. induction cs as [|c cs IH]; intros w Hw; [done|].
  rewrite run_cons. by apply IH, step_settled.
Qed.

Lemma step_callbacks_of (c : Call M T Callback) (w : TW) :
  settled w →
  callbacks_of (exec (step c) w) = callbacks_of w ++ registered [c].
Proof.
  unfold settled, callbacks_of. intros Hw.
  destruct c; cbn [step registered]; rewrite ?app_nil_r; try done.
  - rewrite step_ShouldTriggerHelpUI.
    by destruct (ShouldTriggerHelpUI_frame w feature) as (_ & _ & -> & -> & ->).
  - unfold exec. rewrite AddOnInitializedCallback_run.
    destruct (initialization_finished_ w) eqn:Hfin; cbn.
    + rewrite (Hw eq_refl), !app_nil_r, app_assoc, map_app. done.
    + by rewrite app_assoc.
  - destruct (OnModelInitializationFinished_run w success)
      as (_ & -> & -> & -> & _).
    rewrite app_nil_r, app_assoc, map_app, map_map. cbn.
    by rewrite map_id.
  - run_method. destruct (task_runner w) as [|task queue] eqn:Hq; cbn;
      rewrite ?Hq; [done|].
    by rewrite <- (app_assoc (ran_tasks w)).
Qed.

Lemma step_model_ops (c : Call M T Callback) (w : TW) :
  model_ (exec (step c) w) = foldl apply_op (model_ w) (model_ops c w).
Proof.
  destruct c; cbn [step model_ops]; try done.
  - rewrite step_ShouldTriggerHelpUI, ShouldTriggerHelpUI_eval.
    destruct (NoErrors (verdict feature w)) eqn:Hv.
    + by destruct (ShouldTriggerHelpUI_accepted w feature Hv) as (_ & _ & -> & _).
    + unfold exec. by rewrite (ShouldTriggerHelpUI_declined w feature Hv).
  - unfold exec. rewrite AddOnInitializedCallback_run.
    by destruct (initialization_finished_ w).
  - by destruct (OnModelInitializationFinished_run w success)
      as (_ & _ & _ & _ & -> & _).
  - run_method. by case_match.
Qed.

Lemma step_availability_model (c : Call M T Callback) (w : TW) :
  availability_model_ (exec (step c) w) = availability_model_ w.
Proof.
  destruct c; cbn [step]; try done.
  - rewrite step_ShouldTriggerHelpUI.
    destruct (NoErrors (verdict feature w)) eqn:Hv.
    + by destruct (ShouldTriggerHelpUI_accepted w feature Hv)
        as (_ & _ & _ & -> & _).
    + unfold exec. by rewrite (ShouldTriggerHelpUI_declined w feature Hv).
  - unfold exec. rewrite AddOnInitializedCallback_run.
    by destruct (initialization_finished_ w).
  - unfold OnModelInitializationFinished, DCHECK. run_binds.
    rewrite for_each_PostTask. by destruct (Bool.eqb _ _).
  - run_method. by case_match.
Qed.

(** X1.  In every state a constructed tracker can reach, a finished
    initialization means an empty pending queue; so a report of the model
    that comes again posts no task and runs none. *)
Theorem nothing_pending_once_finished (model : M) (availability_model : A)
    (configuration : C) (condition_validator : V) (time_provider : T)
    (cs : TTrace) success :
  let w := run cs (FeatureEngagementTrackerImpl model availability_model
                     configuration condition_validator time_provider) in
  initialization_finished_ w = true →
  on_initialized_callbacks_ w = []
  ∧ task_runner (exec (OnModelInitializationFinished success) w) = task_runner w
  ∧ ran_tasks (exec (OnModelInitializationFinished success) w) = ran_tasks w
  ∧ on_initialized_callbacks_ (exec (OnModelInitializationFinished success) w) = [].
Proof.
  intros w Hfin.
  assert (Hpending : on_initialized_callbacks_ w = []).
  { by apply (run_settled cs (FeatureEngagementTrackerImpl _ _ _ _ _)). }
  destruct (OnModelInitializationFinished_run w success)
    as (_ & -> & -> & -> & _).
  by rewrite Hpending, app_nil_r.
Qed.

(** X2.  No callback is lost, doubled or overtaken.  Whatever happens to
    a constructed tracker, the callbacks whose task has run, then those
    whose task is queued, then those still pending are, in this order,
    the callbacks registered so far in the order of their registration. *)
Theorem callbacks_conserved_in_order (model : M) (availability_model : A)
    (configuration : C) (condition_validator : V) (time_provider : T)
    (cs : TTrace) :
  let w := run cs (FeatureEngagementTrackerImpl model availability_model
                     configuration condition_validator time_provider) in
  map bound_callback (ran_tasks w) ++ map bound_callback (task_runner w)
  ++ on_initialized_callbacks_ w
  = registered cs.
Proof.
  intros w. subst w.
  assert (Hgo : ∀ (cs : TTrace) (w : TW),
            settled w → callbacks_of (run cs w) = callbacks_of w ++ registered cs).
  { clear cs. induction cs as [|c cs IH]; intros w Hw.
    - cbn. by rewrite app_nil_r.
    - rewrite run_cons, IH by (by apply step_settled).
      rewrite step_callbacks_of by done. rewrite <- app_assoc. f_equal.
      by destruct c. }
  specialize (Hgo cs (FeatureEngagementTrackerImpl model availability_model
                        configuration condition_validator time_provider)).
  unfold callbacks_of in Hgo at 1. rewrite map_app, <- app_assoc in Hgo.
  by rewrite Hgo.
Qed.

(** X3.  What a trace does to the collaborators.  The configuration and
    the availability model never change.  The validator is told
    [NotifyIsShowing] once for each [ShouldTriggerHelpUI] that returned
    true and [NotifyDismissed] once for each [Dismissed], in the order of
    the calls, and nothing else.  The model is told [IncrementEvent] once
    for each [NotifyEvent] and once, with the trigger event, for each
    [ShouldTriggerHelpUI] that returned true, in the order of the calls,
    and nothing else. *)
Theorem collaborators_see_exactly_these_calls (w : TW) (cs : TTrace) :
  configuration_ (run cs w) = configuration_ w
  ∧ availability_model_ (run cs w) = availability_model_ w
  ∧ condition_validator_ (run cs w)
    = foldl notify (condition_validator_ w) (trace_notifications cs w)
  ∧ model_ (run cs w) = foldl apply_op (model_ w) (trace_model_ops cs w).
Proof.
  revert w. induction cs as [|c cs IH]; intros w; [done|].
  rewrite run_cons. destruct (IH (exec (step c) w)) as (-> & -> & -> & ->).
  cbn [trace_notifications trace_model_ops]. rewrite !foldl_app.
  by rewrite step_configuration, step_availability_model,
    step_notifications, step_model_ops.
Qed.

End TrackerTraces.

(** * More about the factories *)

Lemma list_ascii_of_string_append (s1 s2 : string) :
  String.list_ascii_of_string (s1 +:+ s2)
  = String.list_ascii_of_string s1 ++ String.list_ascii_of_string s2.
Proof.
  induction s1 as [|a s1 IH]; [done|].
  change (a :: String.list_ascii_of_string (s1 +:+ s2)
          = a :: (String.list_ascii_of_string s1 ++ String.list_ascii_of_string s2)).
  by rewrite IH.
Qed.

Lemma append_inv_tail (s1 s2 suffix : string) :
  s1 +:+ suffix = s2 +:+ suffix → s1 = s2.
Proof.
  intros Heq. apply (f_equal String.list_ascii_of_string) in Heq.
  rewrite !list_ascii_of_string_append in Heq.
  apply app_inv_tail in Heq. apply (f_equal String.string_of_list_ascii) in Heq.
  by rewrite !String.string_of_list_ascii_of_string in Heq.
Qed.

Lemma demo_configuration_lookup (all_features : list base.Feature)
    (c : EditableConfiguration) feature :
  GetFeatureConfig
    (foldl (λ configuration feature,
              SetConfiguration configuration feature (DemoFeatureConfig feature))
           c all_features) feature
  = if bool_decide (feature ∈ all_features) then DemoFeatureConfig feature
    else GetFeatureConfig c feature.
Proof.
  revert c. induction all_features as [|f fs IH]; intros c; [done|].
  cbn [foldl]. rewrite IH. cbn. rewrite lookup_insert.
  rewrite (bool_decide_ext (feature ∈ f :: fs) (feature = f ∨ feature ∈ fs))
    by apply elem_of_cons.
  repeat case_bool_decide; repeat case_decide; simplify_eq; try done;
    try tauto.
  match goal with Hin : _ ∨ _ |- _ => by destruct Hin as [->|?] end.
Qed.

(** X4.  The demo-mode tracker, with a configuration in which
    [SetConfiguration] overwrites: every feature of [GetAllFeatures()],
    listed once or more, has the valid configuration whose trigger event
    is its name followed by [_trigger] and in which nothing else is set.
    Two listed features share a trigger event exactly when they carry the
    same name: features with different names never do, and two feature
    objects with one name always do. *)
Theorem demo_mode_configures_every_feature {Callback : Type}
    (all_features : list base.Feature) (time_provider : SystemTimeProvider)
    (feature : base.Feature) :
  feature ∈ all_features →
  let w := CreateDemoModeFeatureEngagementTracker (Callback:=Callback)
             all_features time_provider in
  GetFeatureConfig (configuration_ w) feature
  = {| valid := true;
       trigger := {| name := base.name feature +:+ "_trigger";
                     comparator := comparator EventConfig_default;
                     storage_window_days := 0 |};
       used := EventConfig_default;
       event_configs := [] |}
  ∧ (∀ other,
       other ∈ all_features →
       name (trigger (GetFeatureConfig (configuration_ w) feature))
       = name (trigger (GetFeatureConfig (configuration_ w) other))
       ↔ base.name feature = base.name other).
Proof.
  intros Hin w.
  assert (Hlookup : ∀ f, f ∈ all_features →
            GetFeatureConfig (configuration_ w) f = DemoFeatureConfig f).
  { intros f Hf.
    pose proof (demo_configuration_lookup all_features
                  EditableConfiguration_new f) as Hf'.
    by rewrite bool_decide_eq_true_2 in Hf'. }
  split; [by apply Hlookup|].
  intros other Hother. rewrite !Hlookup by done. cbn. split.
  - apply append_inv_tail.
  - by intros ->.
Qed.

Section CreateProperties.

Context {Callback : Type}.
Context {SequencedTaskRunner FilePath ProtoDatabase PersistentStore_t
         FeatureConfigStorageValidator_t RawModel PersistentModel
         ChromeVariationsConfiguration FeatureConfigConditionValidator : Type}.
Context `{!Model PersistentModel, !Configuration ChromeVariationsConfiguration,
          !ConditionValidator FeatureConfigConditionValidator
             PersistentModel NeverAvailabilityModel}.

(** X5.  [Create] hands out a tracker only in demo mode.  With
    [kIPHDemoMode] enabled it returns the demo-mode tracker and looks at
    neither the storage directory nor the task runner.  With it disabled,
    [storage_validator] has been moved into the [ModelImpl] by the time
    [storage_validator->InitializeFeatures] is reached: the call goes
    through a null pointer, whatever the components are, and no tracker is
    constructed before it. *)
Theorem Create_returns_only_in_demo_mode
    (new_ProtoDatabaseImpl : SequencedTaskRunner → ProtoDatabase)
    (new_PersistentStore : FilePath → unique_ptr ProtoDatabase → PersistentStore_t)
    (new_FeatureConfigStorageValidator : FeatureConfigStorageValidator_t)
    (new_ModelImpl :
       unique_ptr PersistentStore_t → unique_ptr FeatureConfigStorageValidator_t →
       RawModel)
    (new_InitAwareModel : unique_ptr RawModel → PersistentModel)
    (new_ChromeVariationsConfiguration : ChromeVariationsConfiguration)
    (new_FeatureConfigConditionValidator : FeatureConfigConditionValidator)
    (new_SystemTimeProvider : SystemTimeProvider)
    (ParseFeatureConfigs :
       ChromeVariationsConfiguration → list base.Feature →
       ChromeVariationsConfiguration)
    (InitializeFeatures :
       FeatureConfigStorageValidator_t → list base.Feature →
       ChromeVariationsConfiguration → FeatureConfigStorageValidator_t)
    (FeatureList_IsEnabled : base.Feature → bool)
    (kIPHDemoMode : base.Feature) (GetAllFeatures : list base.Feature)
    (storage_dir : FilePath) (background_task_runner : SequencedTaskRunner) :
  let created : Outcome (Tracker Callback PersistentModel
                           ChromeVariationsConfiguration
                           FeatureConfigConditionValidator) :=
    Create new_ProtoDatabaseImpl new_PersistentStore
      new_FeatureConfigStorageValidator new_ModelImpl new_InitAwareModel
      new_ChromeVariationsConfiguration new_FeatureConfigConditionValidator
      new_SystemTimeProvider ParseFeatureConfigs InitializeFeatures
      FeatureList_IsEnabled kIPHDemoMode GetAllFeatures
      storage_dir background_task_runner in
  created
  = (if FeatureList_IsEnabled kIPHDemoMode
     then Returns (DemoModeTracker
                     (CreateDemoModeFeatureEngagementTracker GetAllFeatures
                        new_SystemTimeProvider))
     else NullDereference "storage_validator->InitializeFeatures")
  ∧ ((∃ tracker, created = Returns tracker)
     ↔ FeatureList_IsEnabled kIPHDemoMode = true).
Proof.
  intros created. subst created. unfold Create.
  destruct (FeatureList_IsEnabled kIPHDemoMode); cbn.
  - split; [done|]. split; [done|]. intros _. by eexists.
  - split; [done|]. split; [|done]. by intros [tracker ?].
Qed.

End CreateProperties.

(** *** Examples *)

(** After the report and a late registration nothing is pending, and a
    second report posts nothing. *)
Lemma nothing_pending_once_finished_witness :
  let w := run (load_finished true ++ [CallAddOnInitializedCallback "late"]) demo in
  initialization_finished_ w = true
  ∧ on_initialized_callbacks_ w = []
  ∧ task_runner (exec (OnModelInitializationFinished false) w)
    = [Bind "late" true].
Proof.
  intros w. split; [reflexivity|].
  assert (Hfin : initialization_finished_ w = true) by reflexivity.
  destruct (nothing_pending_once_finished
              {| wrapped_model_ := ModelImpl_new InMemoryStore NeverStorageValidator |}
              NeverAvailabilityModel_new (configuration_ demo)
              OnceConditionValidator_new {| system_day_ := 17000 |}
              (load_finished true ++ [CallAddOnInitializedCallback "late"])
              false Hfin) as (Hpending & Hposted & _).
  split; [exact Hpending|exact Hposted].
Defined.

(** [F1] is listed twice and has the one configuration; the second
    object named F1 gets the same trigger event, [F2] another. *)
Lemma demo_mode_configures_every_feature_witness :
  let w := CreateDemoModeFeatureEngagementTracker (Callback:=string)
             [F1; F2; F1; F1_again] {| system_day_ := 17000 |} in
  F1 ∈ [F1; F2; F1; F1_again]
  ∧ name (trigger (GetFeatureConfig (configuration_ w) F1)) = "F1_trigger"
  ∧ name (trigger (GetFeatureConfig (configuration_ w) F1))
    = name (trigger (GetFeatureConfig (configuration_ w) F1_again))
  ∧ name (trigger (GetFeatureConfig (configuration_ w) F1))
    ≠ name (trigger (GetFeatureConfig (configuration_ w) F2)).
Proof.
  intros w.
  assert (Hin : F1 ∈ [F1; F2; F1; F1_again]) by (by left).
  split; [exact Hin|].
  destruct (demo_mode_configures_every_feature (Callback:=string)
              [F1; F2; F1; F1_again] {| system_day_ := 17000 |} F1 Hin)
    as [Hconfig Hshare].
  split; [|split].
  - fold w in Hconfig. by rewrite Hconfig.
  - apply (Hshare F1_again); [|reflexivity].
    do 3 right. by left.
  - intros Hsame. apply (Hshare F2) in Hsame; [discriminate Hsame|].
    right. by left.
Defined.
